(** * fence: access and validity checks for service account registration

    A shallow embedding of [fence/resources/google/access_utils.py].

    The module talks to two collaborators that live outside the
    repository: the [cirrus] Google client (reached through
    [with GoogleCloudManager(...) as g]) and the SQLAlchemy session.  Both
    are modelled as explicit values handed to every function: a [Cirrus]
    record holding the constants and the manager constructor, and a
    [Session] holding the rows of the tables that are queried.  Python
    exceptions are the [Raises] branch of [outcome]; every observable
    effect (entering and leaving a manager, provider calls, debug log
    lines, store queries) is appended to a trace. *)

From Stdlib Require Import String Ascii ZArith List Bool Lia.
Import ListNotations.
Open Scope string_scope.
Open Scope list_scope.
Open Scope Z_scope.

(** ** Python values that cross the module boundary *)

(** A JSON object whose values are strings, as returned for a service
    account resource: [{"name": "projects/p/serviceAccounts/x", ...}]. *)
Definition dict := list (string * string).

(** [d.get(key, default)] *)
Fixpoint dict_get (d : dict) (key default : string) : string :=
  match d with
  | [] => default
  | (k, v) :: rest => if String.eqb k key then v else dict_get rest key default
  end.

(** [s.split(sep)] for a one-character separator.  The result is never
    empty: [''.split('/') == ['']]. *)
Fixpoint split (sep : ascii) (s : string) : list string :=
  match s with
  | EmptyString => [EmptyString]
  | String c s' =>
      if Ascii.eqb c sep then EmptyString :: split sep s'
      else match split sep s' with
           | [] => [String c EmptyString]
           | h :: t => String c h :: t
           end
  end.

(** [l[-1]] on a list of strings; [IndexError] cannot happen on the result
    of [split], so the default is never used there. *)
Definition last_item (l : list string) : string := last l EmptyString.

(** Truth value of a Python list: empty is falsy. *)
Definition truthy {A : Type} (l : list A) : bool :=
  match l with
  | [] => false
  | _ :: _ => true
  end.

(** ** The cirrus data types *)

(** [cirrus.google_cloud.iam.GooglePolicyMember] *)
Record GooglePolicyMember := {
  member_type : string;
  member_name : string
}.

(** [cirrus.google_cloud.iam.GooglePolicyBinding] *)
Record GooglePolicyBinding := {
  role : string;
  members : list string
}.

(** Modelled from the spec: the body of a policy response of the cloud
    provider contract, which "contains optional `bindings` list".  [None]
    is a body without the [bindings] key. *)
Record policy_json := {
  bindings : option (list GooglePolicyBinding);
  etag : string
}.

(** ['bindings' in json_obj] *)
Definition has_bindings (json_obj : policy_json) : bool :=
  match bindings json_obj with
  | Some _ => true
  | None => false
  end.

(** [cirrus.google_cloud.iam.GooglePolicy]: [roles] is the set of the
    roles of its bindings. *)
Record GooglePolicy := {
  policy_bindings : list GooglePolicyBinding
}.

Definition roles (policy : GooglePolicy) : list string :=
  nodup string_dec (map role (policy_bindings policy)).

(** Modelled from the spec: a provider response [{status, body}]. *)
Record Response (B : Type) := {
  status_code : Z;
  json : B
}.
Arguments status_code {B} _.
Arguments json {B} _.

(** ** Exceptions *)

(** An argument of [str.format] in the message of a [GoogleAPIError]. *)
Inductive fmt_arg :=
| FStr (s : string)
| FPolicy (body : policy_json)
| FDict (body : dict).

(** Instances of Python's [Exception]: the two classes the module names
    and whatever else a collaborator raises. *)
Inductive exn :=
| GoogleAPIError (template : string) (args : list fmt_arg)
| NotImplementedError (message : string)
| OtherException (class_name detail : string).

Inductive outcome (A : Type) :=
| Returns (a : A)
| Raises (e : exn).
Arguments Returns {A} a.
Arguments Raises {A} e.

(** ** Effects *)

Inductive log_arg :=
| LStr (s : string)
| LExc (e : exn).

(** Columns of the [AccessPrivilege] table used by the module. *)
Inductive column :=
| AccessPrivilege_user_id
| AccessPrivilege_project_id.

Inductive sqlval :=
| SqlNull
| SqlInt (z : Z)
| SqlStr (s : string).

Inductive operand :=
| Column (c : column)
| BindParameter (v : sqlval).

(** SQLAlchemy's [BinaryExpression] with operator [eq]. *)
Inductive clause :=
| BinaryExpression (left right : operand).

Inductive event :=
| Enter (project_id : option string)
| Exit
| Call (method : string) (argument : option string)
| Debug (template : string) (args : list log_arg)
| Query (criterion : clause).

(** A computation: its outcome and the effects it performed, in order. *)
Definition Py (A : Type) : Type := (outcome A * list event)%type.

Definition result {A} (c : Py A) : outcome A := fst c.
Definition trace {A} (c : Py A) : list event := snd c.

Definition ret {A} (a : A) : Py A := (Returns a, []).
Definition raise {A} (e : exn) : Py A := (Raises e, []).
Definition emit (ev : event) : Py unit := (Returns tt, [ev]).

Definition bind {A B} (c : Py A) (k : A -> Py B) : Py B :=
  match c with
  | (Returns a, t) => let (r, t') := k a in (r, t ++ t')
  | (Raises e, t) => (Raises e, t)
  end.

Notation "x <- c ;; k" := (bind c (fun x => k))
  (at level 61, c at next level, right associativity).
Notation "c ;;; k" := (bind c (fun _ => k))
  (at level 61, right associativity).

(** [try: c  except Exception as exc: handler exc] *)
Definition try_except {A} (c : Py A) (handler : exn -> Py A) : Py A :=
  match c with
  | (Returns a, t) => (Returns a, t)
  | (Raises e, t) => let (r, t') := handler e in (r, t ++ t')
  end.

(** A call that leaves no trace of its own. *)
Definition lift {A} (o : outcome A) : Py A := (o, []).

(** A provider call: the call is recorded, then its outcome is the
    computation's. *)
Definition call {A} (method : string) (argument : option string)
    (o : outcome A) : Py A :=
  (o, [Call method argument]).

(** [flask.current_app.logger.debug(template.format(args))] *)
Definition logger_debug (template : string) (args : list log_arg) : Py unit :=
  emit (Debug template args).

(** ** The cirrus package *)

(** The object bound by [with GoogleCloudManager(project_id) as g]: each
    method is what the provider answers for that project, or the exception
    the call raises. *)
Record Manager := {
  has_parent_organization : outcome bool;
  get_project_membership : outcome (list GooglePolicyMember);
  get_service_account_type : string -> outcome string;
  get_service_account_policy : string -> outcome (Response policy_json);
  get_service_account_keys_info : string -> outcome (list dict);
  get_all_service_accounts : outcome (list dict);
  get_service_account : string -> outcome (Response dict)
}.

(** What the module imports from cirrus: four constants whose values are
    fixed by cirrus, the manager, whose construction and [__enter__] may
    raise, and the policy parser.  Of the parser, which is not part of the
    sources, the part that cirrus decides is kept as [parse_binding]: what
    it makes of one entry of a bindings list, or the exception it raises
    on an entry it cannot read. *)
Record Cirrus := {
  GooglePolicyMember_SERVICE_ACCOUNT : string;
  GooglePolicyMember_USER : string;
  COMPUTE_ENGINE_DEFAULT_SERVICE_ACCOUNT : string;
  USER_MANAGED_SERVICE_ACCOUNT : string;
  GoogleCloudManager : option string -> outcome Manager;
  parse_binding : GooglePolicyBinding -> outcome GooglePolicyBinding
}.

(** The entries of a bindings list are read in order; the first one that
    cannot be read makes the whole reading raise. *)
Fixpoint parse_bindings
    (parse : GooglePolicyBinding -> outcome GooglePolicyBinding)
    (listed : list GooglePolicyBinding) : outcome (list GooglePolicyBinding) :=
  match listed with
  | [] => Returns []
  | binding :: rest =>
      match parse binding with
      | Raises e => Raises e
      | Returns parsed =>
          match parse_bindings parse rest with
          | Raises e => Raises e
          | Returns parsed_rest => Returns (parsed :: parsed_rest)
          end
      end
  end.

(** Modelled from the spec: cirrus is outside the sources, and the spec
    says of a policy only that its body has an optional bindings list and
    that its roles are those of its bindings.
    [GooglePolicy.from_json(json_obj)] reads [json_obj['bindings']]
    ([KeyError] on a body without that key) and builds one binding per
    entry; whether an entry can be read is up to [parse_binding]. *)
Definition from_json (cirrus : Cirrus) (json_obj : policy_json)
    : outcome GooglePolicy :=
  match bindings json_obj with
  | Some listed =>
      match parse_bindings (parse_binding cirrus) listed with
      | Returns parsed => Returns {| policy_bindings := parsed |}
      | Raises e => Raises e
      end
  | None => Raises (OtherException "KeyError" "bindings")
  end.

Definition ALLOWED_SERVICE_ACCOUNT_TYPES (cirrus : Cirrus) : list string :=
  [ COMPUTE_ENGINE_DEFAULT_SERVICE_ACCOUNT cirrus;
    USER_MANAGED_SERVICE_ACCOUNT cirrus ].

(** [x in l] on a list of strings. *)
Definition py_in (x : string) (l : list string) : bool :=
  existsb (String.eqb x) l.

(** [with GoogleCloudManager(project_id) as g: body g].  [__exit__] runs
    however the body ends and does not swallow the body's exception. *)
Definition with_GoogleCloudManager {A} (cirrus : Cirrus)
    (project_id : option string) (body : Manager -> Py A) : Py A :=
  match GoogleCloudManager cirrus project_id with
  | Raises e => (Raises e, [Enter project_id])
  | Returns g => let (r, t) := body g in (r, Enter project_id :: t ++ [Exit])
  end.

Definition newline : string := String (ascii_of_nat 10) EmptyString.

(** ** The transactional store *)

Record AccessPrivilege := {
  user_id : option Z;
  project_id : option Z;
  privilege : list string
}.

Record Project := {
  Project_id : Z;
  auth_id : string
}.

Record Session := {
  access_privileges : list AccessPrivilege;
  projects : list Project
}.

Definition of_nullable (v : option Z) : sqlval :=
  match v with
  | Some z => SqlInt z
  | None => SqlNull
  end.

Definition column_value (row : AccessPrivilege) (c : column) : sqlval :=
  match c with
  | AccessPrivilege_user_id => of_nullable (user_id row)
  | AccessPrivilege_project_id => of_nullable (project_id row)
  end.

Definition operand_value (row : AccessPrivilege) (o : operand) : sqlval :=
  match o with
  | Column c => column_value row c
  | BindParameter v => v
  end.

(** SQL [=] as a row filter: NULL matches nothing, and neither does a
    comparison of an integer with a string. *)
Definition sql_eq (a b : sqlval) : bool :=
  match a, b with
  | SqlInt x, SqlInt y => x =? y
  | SqlStr s, SqlStr t => String.eqb s t
  | _, _ => false
  end.

Definition clause_holds (row : AccessPrivilege) (criterion : clause) : bool :=
  match criterion with
  | BinaryExpression l r => sql_eq (operand_value row l) (operand_value row r)
  end.

(** [column == value] builds the expression; the value is wrapped in a
    bind parameter created for this comparison. *)
Definition column_eq (c : column) (v : sqlval) : clause :=
  BinaryExpression (Column c) (BindParameter v).

Definition column_eqb (c c' : column) : bool :=
  match c, c' with
  | AccessPrivilege_user_id, AccessPrivilege_user_id => true
  | AccessPrivilege_project_id, AccessPrivilege_project_id => true
  | _, _ => false
  end.

(** Object identity of two operands.  A bind parameter is a fresh object,
    identical to no other operand. *)
Definition same_object (a b : operand) : bool :=
  match a, b with
  | Column c, Column c' => column_eqb c c'
  | _, _ => false
  end.

(** [bool(expr)] for a [BinaryExpression] with operator [eq]: SQLAlchemy
    compares the hashes of the two operands, which are their identities. *)
Definition clause_bool (criterion : clause) : bool :=
  match criterion with
  | BinaryExpression l r => same_object l r
  end.

(** Python's [x and y]: [x] when [x] is falsy, else [y]. *)
Definition py_and {A} (truth : A -> bool) (x y : A) : A :=
  if truth x then y else x.

(** [current_session.query(AccessPrivilege).filter(criterion).first()] *)
Definition query_first (current_session : Session) (criterion : clause)
    : Py (option AccessPrivilege) :=
  (Returns (hd_error (filter (fun row => clause_holds row criterion)
                             (access_privileges current_session))),
   [Query criterion]).

(** ** access_utils.py *)

Definition not_yet_available : exn :=
  NotImplementedError "Functionality not yet available...".

Definition is_service_account_from_google_project
    (service_account google_project : string) : Py bool :=
  raise not_yet_available.

Definition is_user_member_of_all_google_projects
    (user : Z) (google_project_ids : list string) : Py bool :=
  raise not_yet_available.

Definition get_service_account_email (account_id : string) : Py string :=
  raise not_yet_available.

Definition get_google_project_from_service_account_email
    (account_id : string) : Py string :=
  raise not_yet_available.

Definition can_user_manage_service_account
    (user : Z) (account_id : string) : Py bool :=
  service_account_email <- get_service_account_email account_id ;;
  service_account_project <-
    get_google_project_from_service_account_email service_account_email ;;
  is_user_member_of_all_google_projects user [service_account_project].

Definition google_project_has_parent_org
    (cirrus : Cirrus) (project : string) : Py bool :=
  try_except
    (with_GoogleCloudManager cirrus (Some project) (fun prj =>
       call "has_parent_organization" None (has_parent_organization prj)))
    (fun exc =>
       logger_debug
         "Could not determine if Google project (id: {}) has parent orgdue to error (Details: {})"
         [LStr project; LExc exc] ;;;
       ret false).

(** The [for member in members] loop of
    [google_project_has_valid_membership]: [false] is the [return False]
    in the loop body, [true] the [return True] after it. *)
Fixpoint only_users_and_service_accounts
    (cirrus : Cirrus) (project_members : list GooglePolicyMember) : bool :=
  match project_members with
  | [] => true
  | member :: rest =>
      if negb (String.eqb (member_type member)
                          (GooglePolicyMember_SERVICE_ACCOUNT cirrus)
               || String.eqb (member_type member)
                             (GooglePolicyMember_USER cirrus))
      then false
      else only_users_and_service_accounts cirrus rest
  end.

Definition google_project_has_valid_membership
    (cirrus : Cirrus) (project : string) : Py bool :=
  try_except
    (with_GoogleCloudManager cirrus (Some project) (fun prj =>
       project_members <-
         call "get_project_membership" None (get_project_membership prj) ;;
       ret (only_users_and_service_accounts cirrus project_members)))
    (fun exc =>
       logger_debug
         "validity of Google Project (id: {}) membership determined False due to error. Details: {}"
         [LStr project; LExc exc] ;;;
       ret false).

Definition is_valid_service_account_type
    (cirrus : Cirrus) (project account_id : string) : Py bool :=
  try_except
    (with_GoogleCloudManager cirrus (Some project) (fun g_mgr =>
       account_type <-
         call "get_service_account_type" (Some account_id)
              (get_service_account_type g_mgr account_id) ;;
       ret (py_in account_type (ALLOWED_SERVICE_ACCOUNT_TYPES cirrus))))
    (fun exc =>
       logger_debug
         "validity of Google service account {} (google project: {}) type determined False due to error. Details: {}"
         [LStr account_id; LStr project; LExc exc] ;;;
       ret false).

(** The body of the [with] block of [service_account_has_external_access].
    [Some b] is a [return b] inside the block; [None] is falling out of
    the block towards the final [return False]. *)
Definition external_access_block
    (cirrus : Cirrus) (g_mgr : Manager) (service_account : string)
    : Py (option bool) :=
  response <-
    call "get_service_account_policy" (Some service_account)
         (get_service_account_policy g_mgr service_account) ;;
  if negb (status_code response =? 200)
  then raise (GoogleAPIError
                ("Unable to get IAM policy for service account {}"
                   ++ newline ++ "{}.")%string
                [FStr service_account; FPolicy (json response)])
  else
    let json_obj := json response in
    returned <-
      (if has_bindings json_obj
       then policy <- lift (from_json cirrus json_obj) ;;
            if truthy (roles policy) then ret (Some true) else ret None
       else ret None) ;;
    match returned with
    | Some b => ret (Some b)
    | None =>
        keys <-
          call "get_service_account_keys_info" (Some service_account)
               (get_service_account_keys_info g_mgr service_account) ;;
        if truthy keys then ret (Some true) else ret None
    end.

Definition service_account_has_external_access
    (cirrus : Cirrus) (service_account : string) : Py bool :=
  returned <-
    with_GoogleCloudManager cirrus None (fun g_mgr =>
      external_access_block cirrus g_mgr service_account) ;;
  match returned with
  | Some b => ret b
  | None => ret false
  end.

(** The loop of [do_all_users_have_access_to_project].  The criterion is
    written with Python's [and] between two SQLAlchemy expressions. *)
Fixpoint do_all_users_have_access_to_project
    (current_session : Session) (user_ids : list Z) (project_auth_id : string)
    : Py bool :=
  match user_ids with
  | [] => ret true
  | user :: rest =>
      access_privillege <-
        query_first current_session
          (py_and clause_bool
             (column_eq AccessPrivilege_user_id (SqlInt user))
             (column_eq AccessPrivilege_project_id (SqlStr project_auth_id))) ;;
      match access_privillege with
      | None => ret false
      | Some _ =>
          do_all_users_have_access_to_project current_session rest
            project_auth_id
      end
  end.

(** [account.get('name', '').split('/')[-1]] *)
Definition account_id_of (account : dict) : string :=
  last_item (split "/" (dict_get account "name" "")).

(** The [for account in service_accounts] loop of
    [do_get_service_account_from_google_project], with the list being
    accumulated. *)
Fixpoint fetch_service_accounts
    (g_mgr : Manager) (service_accounts : list dict)
    (service_account_jsons : list dict) : Py (list dict) :=
  match service_accounts with
  | [] => ret service_account_jsons
  | account :: rest =>
      let account_id := account_id_of account in
      response <-
        call "get_service_account" (Some account_id)
             (get_service_account g_mgr account_id) ;;
      if negb (status_code response =? 200)
      then raise (GoogleAPIError
                    ("Unable to get service account {}" ++ newline ++ "{}.")%string
                    [FStr account_id; FDict (json response)])
      else fetch_service_accounts g_mgr rest
             (service_account_jsons ++ [json response])
  end.

Definition do_get_service_account_from_google_project
    (cirrus : Cirrus) (project : string) : Py (list dict) :=
  with_GoogleCloudManager cirrus (Some project) (fun g_mgr =>
    service_accounts <-
      call "get_all_service_accounts" None (get_all_service_accounts g_mgr) ;;
    fetch_service_accounts g_mgr service_accounts []).

(** ** What the specification says, in its own words *)

(** "a direct AccessPrivilege row for the project": a row of the user
    whose project is the one carrying the authorization identifier. *)
Definition is_direct_row_for
    (current_session : Session) (user : Z) (project_auth_id : string)
    (row : AccessPrivilege) : bool :=
  sql_eq (of_nullable (user_id row)) (SqlInt user)
  && existsb (fun p => sql_eq (of_nullable (project_id row)) (SqlInt (Project_id p))
                       && String.eqb (auth_id p) project_auth_id)
             (projects current_session).

(** "true iff every listed user has a direct AccessPrivilege row for the
    project" *)
Definition userHasAccessToAllOf
    (current_session : Session) (user_ids : list Z) (project_auth_id : string)
    : bool :=
  forallb (fun user =>
             existsb (is_direct_row_for current_session user project_auth_id)
                     (access_privileges current_session))
          user_ids.

(** What the code's query looks for: any row of the user. *)
Definition has_some_row (current_session : Session) (user : Z) : bool :=
  existsb (fun row => sql_eq (of_nullable (user_id row)) (SqlInt user))
          (access_privileges current_session).

(** "if the policy response lacks a bindings section, treated as no roles":
    the set of roles of a policy body. *)
Definition role_set (body : policy_json) : list string :=
  match bindings body with
  | Some bs => nodup string_dec (map role bs)
  | None => []
  end.


(** "every member's type is one of {individual-user, service-account}" *)
Definition is_user_or_service_account
    (cirrus : Cirrus) (member : GooglePolicyMember) : Prop :=
  member_type member = GooglePolicyMember_USER cirrus
  \/ member_type member = GooglePolicyMember_SERVICE_ACCOUNT cirrus.

(** A provider call made inside [with GoogleCloudManager(project) as g]
    raises [e]: either the manager cannot be obtained or the method
    raises. *)
Definition provider_call_raises {A}
    (cirrus : Cirrus) (project : option string)
    (method : Manager -> outcome A) (e : exn) : Prop :=
  GoogleCloudManager cirrus project = Raises e
  \/ exists g, GoogleCloudManager cirrus project = Returns g
               /\ method g = Raises e.

(** Every enumerated account is fetched without an exception, [responses]
    giving the provider's answer for each account id. *)
Definition fetches_answer (g_mgr : Manager) (responses : string -> Response dict)
    (service_accounts : list dict) : Prop :=
  forall account, In account service_accounts ->
    get_service_account g_mgr (account_id_of account)
    = Returns (responses (account_id_of account)).

Definition fetched_status (responses : string -> Response dict)
    (account : dict) : Z :=
  status_code (responses (account_id_of account)).

Definition fetched_json (responses : string -> Response dict)
    (account : dict) : dict :=
  json (responses (account_id_of account)).

(** ** Sample worlds *)

Definition quota_exceeded : exn :=
  OtherException "HttpError" "429 quota exceeded".

Definition sample_account : dict :=
  [ ("name", "projects/p1/serviceAccounts/sa@p1.iam.gserviceaccount.com");
    ("projectId", "p1") ].

Definition sample_manager : Manager := {|
  has_parent_organization := Returns false;
  get_project_membership :=
    Returns [ {| member_type := "user"; member_name := "a@example.org" |};
              {| member_type := "serviceAccount";
                 member_name := "sa@p1.iam.gserviceaccount.com" |} ];
  get_service_account_type := fun _ => Returns "user-managed";
  get_service_account_policy := fun _ =>
    Returns {| status_code := 200;
               json := {| bindings := None; etag := "ACAB" |} |};
  get_service_account_keys_info := fun _ => Returns [ [("name", "key-1")] ];
  get_all_service_accounts := Returns [ sample_account; sample_account ];
  get_service_account := fun account_id =>
    Returns {| status_code := 200; json := [("email", account_id)] |}
|}.

(** A member of a binding can be split at [':'] into a type and a name:
    [member.split(':')[1]] exists. *)
Definition has_type_and_name (member : string) : bool :=
  match split ":" member with
  | _ :: _ :: _ => true
  | _ => false
  end.

(** A binding parser in the manner of cirrus: every member is split at
    [':'] into its type and its name, and a member without [':'], such as
    [allUsers], raises [IndexError]. *)
Definition split_members_at_colon (binding : GooglePolicyBinding)
    : outcome GooglePolicyBinding :=
  if forallb has_type_and_name (members binding)
  then Returns binding
  else Raises (OtherException "IndexError" "list index out of range").

Definition cirrus_with (manager : outcome Manager) : Cirrus := {|
  GooglePolicyMember_SERVICE_ACCOUNT := "serviceAccount";
  GooglePolicyMember_USER := "user";
  COMPUTE_ENGINE_DEFAULT_SERVICE_ACCOUNT := "compute-engine-default";
  USER_MANAGED_SERVICE_ACCOUNT := "user-managed";
  GoogleCloudManager := fun _ => manager;
  parse_binding := split_members_at_colon
|}.




Definition sample_cirrus : Cirrus := cirrus_with (Returns sample_manager).

(** A provider that refuses every connection. *)
Definition unreachable_cirrus : Cirrus := cirrus_with (Raises quota_exceeded).

(** A provider that answers the policy and account fetches with 403. *)
Definition forbidden_manager : Manager := {|
  has_parent_organization := Raises quota_exceeded;
  get_project_membership := Returns [];
  get_service_account_type := fun _ => Raises quota_exceeded;
  get_service_account_policy := fun _ =>
    Returns {| status_code := 403;
               json := {| bindings := None; etag := "" |} |};
  get_service_account_keys_info := fun _ => Returns [];
  get_all_service_accounts := Returns [ sample_account ];
  get_service_account := fun _ =>
    Returns {| status_code := 403; json := [("error", "forbidden")] |}
|}.

Definition forbidden_cirrus : Cirrus := cirrus_with (Returns forbidden_manager).

(** Two projects; user 1 holds a privilege on the first one only. *)
Definition sample_session : Session := {|
  access_privileges :=
    [ {| user_id := Some 1; project_id := Some 10; privilege := ["read"] |} ];
  projects :=
    [ {| Project_id := 10; auth_id := "phs_project_1" |};
      {| Project_id := 20; auth_id := "phs_project_2" |} ]
|}.

(** ** Notions used to state further properties *)

(** [c in s] for a character and a string. *)
Fixpoint contains (c : ascii) (s : string) : bool :=
  match s with
  | EmptyString => false
  | String c' s' => Ascii.eqb c' c || contains c s'
  end.

(** [sep.join(pieces)] *)
Fixpoint join (sep : ascii) (pieces : list string) : string :=
  match pieces with
  | [] => EmptyString
  | [piece] => piece
  | piece :: rest => (piece ++ String sep (join sep rest))%string
  end.

(** The event left by one iteration of the loop of
    [do_get_service_account_from_google_project]. *)
Definition fetch_call (account : dict) : event :=
  Call "get_service_account" (Some (account_id_of account)).

(** The event left by one iteration of the loop of
    [do_all_users_have_access_to_project]. *)
Definition user_query (user : Z) : event :=
  Query (column_eq AccessPrivilege_user_id (SqlInt user)).

Definition is_debug (ev : event) : bool :=
  match ev with
  | Debug _ _ => true
  | _ => false
  end.

(** The log lines of a trace. *)
Definition debug_lines (t : list event) : list event := filter is_debug t.

(** A provider that answers 200 for the first account and 403 for the
    second; the third cannot even be fetched. *)
Definition good_account : dict :=
  [("name", "projects/p1/serviceAccounts/good")].

Definition bad_account : dict :=
  [("name", "projects/p1/serviceAccounts/bad")].

Definition broken_account : dict :=
  [("name", "projects/p1/serviceAccounts/broken")].

Definition partly_failing_manager : Manager := {|
  has_parent_organization := Returns true;
  get_project_membership := Returns [];
  get_service_account_type := fun _ => Returns "";
  get_service_account_policy := fun _ => Raises quota_exceeded;
  get_service_account_keys_info := fun _ => Raises quota_exceeded;
  get_all_service_accounts :=
    Returns [good_account; bad_account; broken_account];
  get_service_account := fun account_id =>
    if String.eqb account_id "good"
    then Returns {| status_code := 200; json := good_account |}
    else if String.eqb account_id "bad"
    then Returns {| status_code := 403; json := [] |}
    else Raises quota_exceeded
|}.

(** A policy, fetched with status 200, that names an owner. *)
Definition owner_policy : Response policy_json := {|
  status_code := 200;
  json := {| bindings := Some [ {| role := "roles/owner";
                                   members := ["user:a@example.org"] |} ];
             etag := "" |}
|}.


(** A provider with that policy whose key listing is out of order. *)
Definition owner_bound_manager : Manager := {|
  has_parent_organization := Returns true;
  get_project_membership := Returns [];
  get_service_account_type := fun _ => Returns "";
  get_service_account_policy := fun _ => Returns owner_policy;
  get_service_account_keys_info := fun _ => Raises quota_exceeded;
  get_all_service_accounts := Returns [];
  get_service_account := fun _ => Raises quota_exceeded
|}.

(** * Properties *)

(** ** The computation monad *)

Lemma result_bind_returns {A B} (c : Py A) (k : A -> Py B) (a : A) :
  result c = Returns a -> result (bind c k) = result (k a).
Proof.
  destruct c as [[a' | e] t]; simpl; intros H; [| discriminate].
  injection H as ->. now destruct (k a).
Qed.

Lemma result_bind_raises {A B} (c : Py A) (k : A -> Py B) (e : exn) :
  result c = Raises e -> result (bind c k) = Raises e.
Proof.
  destruct c as [[a | e'] t]; simpl; intros H; [discriminate |].
  now injection H as ->.
Qed.

Lemma result_try_returns {A} (c : Py A) (handler : exn -> Py A) (a : A) :
  result c = Returns a -> result (try_except c handler) = Returns a.
Proof.
  destruct c as [[a' | e] t]; simpl; intros H; [exact H | discriminate].
Qed.

Lemma result_try_raises {A} (c : Py A) (handler : exn -> Py A) (e : exn) :
  result c = Raises e -> result (try_except c handler) = result (handler e).
Proof.
  destruct c as [[a | e'] t]; simpl; intros H; [discriminate |].
  injection H as ->. now destruct (handler e).
Qed.

Lemma result_with_unavailable {A} cirrus project (body : Manager -> Py A) e :
  GoogleCloudManager cirrus project = Raises e ->
  result (with_GoogleCloudManager cirrus project body) = Raises e.
Proof.
  unfold with_GoogleCloudManager. now intros ->.
Qed.

Lemma result_with_available {A} cirrus project (body : Manager -> Py A) g :
  GoogleCloudManager cirrus project = Returns g ->
  result (with_GoogleCloudManager cirrus project body) = result (body g).
Proof.
  unfold with_GoogleCloudManager. intros ->. now destruct (body g).
Qed.

(** A call made under a manager raises what [provider_call_raises] says,
    whatever is done with its value afterwards. *)
Lemma result_with_call_raises {A B} cirrus project
    (method : Manager -> outcome A) name argument (k : A -> Py B) e :
  provider_call_raises cirrus (Some project) method e ->
  result (with_GoogleCloudManager cirrus (Some project) (fun g =>
            bind (call name (argument g) (method g)) k)) = Raises e.
Proof.
  intros [H | (g & Hg & Hm)].
  - now apply result_with_unavailable.
  - rewrite (result_with_available _ _ _ g Hg).
    apply result_bind_raises. unfold call, result; simpl. exact Hm.
Qed.

(** ** The criterion built with [and] *)

(** Python's [and] hands back one of its two operands, never their
    conjunction, whatever the truth value of the first. *)
Lemma py_and_is_an_operand {A} (truth : A -> bool) (x y : A) :
  py_and truth x y = x \/ py_and truth x y = y.
Proof.
  unfold py_and. destruct (truth x); auto.
Qed.

(** A comparison of a column with a value is falsy, so [and] keeps it and
    drops the right-hand comparison. *)
Lemma criterion_keeps_left_comparison c v c' v' :
  py_and clause_bool (column_eq c v) (column_eq c' v') = column_eq c v.
Proof. reflexivity. Qed.

(** The query of one loop iteration finds a row exactly when the user has
    a row at all. *)
Lemma first_row_found current_session user :
  match hd_error (filter (fun row =>
                            clause_holds row
                              (column_eq AccessPrivilege_user_id (SqlInt user)))
                         (access_privileges current_session)) with
  | Some _ => true
  | None => false
  end = has_some_row current_session user.
Proof.
  unfold has_some_row.
  induction (access_privileges current_session) as [| row rows IH]; simpl.
  - reflexivity.
  - destruct (sql_eq (of_nullable (user_id row)) (SqlInt user)); simpl; auto.
Qed.

(** What the loop computes: every listed user has some row, for whatever
    project. *)
Lemma do_all_users_have_access_to_project_result
    current_session user_ids project_auth_id :
  result (do_all_users_have_access_to_project current_session user_ids
            project_auth_id)
  = Returns (forallb (has_some_row current_session) user_ids).
Proof.
  induction user_ids as [| user rest IH]; simpl.
  - reflexivity.
  - rewrite <- first_row_found.
    unfold query_first. rewrite criterion_keeps_left_comparison.
    unfold bind.
    destruct (hd_error _) as [row |]; simpl.
    + destruct (do_all_users_have_access_to_project _ rest _) as [r t].
      simpl in *. exact IH.
    + reflexivity.
Qed.

(** The project authorization id has no influence on the computation. *)
Lemma do_all_users_have_access_to_project_any_project
    current_session user_ids auth auth' :
  do_all_users_have_access_to_project current_session user_ids auth
  = do_all_users_have_access_to_project current_session user_ids auth'.
Proof.
  induction user_ids as [| user rest IH]; simpl.
  - reflexivity.
  - rewrite !criterion_keeps_left_comparison. unfold bind, query_first.
    destruct (hd_error _); [now rewrite IH | reflexivity].
Qed.

(** One direction of the specified equivalence does hold: users who all
    have a direct row for the project make the function return [True]. *)
Lemma direct_rows_make_the_check_pass current_session user_ids project_auth_id :
  userHasAccessToAllOf current_session user_ids project_auth_id = true ->
  result (do_all_users_have_access_to_project current_session user_ids
            project_auth_id) = Returns true.
Proof.
  intros H. rewrite do_all_users_have_access_to_project_result. f_equal.
  unfold userHasAccessToAllOf in H. rewrite forallb_forall in *.
  intros user Hin. specialize (H user Hin).
  unfold has_some_row. rewrite existsb_exists in *.
  destruct H as (row & Hrow & Hdirect). exists row. split; [exact Hrow |].
  unfold is_direct_row_for in Hdirect.
  now apply andb_true_iff in Hdirect as [Huser _].
Qed.

(** C1, at an input where the code departs from it: user 1 holds a
    privilege on [phs_project_1] only; asked about [phs_project_2], the
    function answers [True] after a query that filters on the user alone,
    while no direct row for that project exists. *)
Theorem do_all_users_have_access_ignores_project :
  do_all_users_have_access_to_project sample_session [1] "phs_project_2"
  = (Returns true,
     [Query (column_eq AccessPrivilege_user_id (SqlInt 1))])
  /\ userHasAccessToAllOf sample_session [1] "phs_project_2" = false.
Proof. split; reflexivity. Qed.

(** C9: on the empty list of user ids the function returns [True] and
    issues no query. *)
Theorem do_all_users_have_access_empty current_session project_auth_id :
  do_all_users_have_access_to_project current_session [] project_auth_id
  = (Returns true, []).
Proof. reflexivity. Qed.

(** C7: [can_user_manage_service_account] raises [NotImplementedError]
    for every user and account, as do the collaborators it relies on; it
    never returns a boolean. *)
Theorem can_user_manage_service_account_not_implemented
    (user : Z) (account_id : string) (google_project_ids : list string) :
  result (can_user_manage_service_account user account_id)
    = Raises (NotImplementedError "Functionality not yet available...")
  /\ (forall b, result (can_user_manage_service_account user account_id)
                <> Returns b)
  /\ result (get_service_account_email account_id)
       = Raises (NotImplementedError "Functionality not yet available...")
  /\ result (is_user_member_of_all_google_projects user google_project_ids)
       = Raises (NotImplementedError "Functionality not yet available...").
Proof.
  repeat split; try reflexivity.
  intros b H. discriminate H.
Qed.

(** ** The fail-closed checks *)

(** A [try] whose handler logs and returns [False] never raises. *)
Lemma fail_closed_returns (c : Py bool) template args :
  exists b, result (try_except c (fun exc =>
                      logger_debug template (args exc) ;;; ret false))
            = Returns b.
Proof.
  destruct c as [[b | e] t]; simpl.
  - now exists b.
  - now exists false.
Qed.

Lemma fail_closed_on_raise (c : Py bool) template args e :
  result c = Raises e ->
  result (try_except c (fun exc =>
            logger_debug template (args exc) ;;; ret false))
  = Returns false.
Proof.
  intros H. now rewrite (result_try_raises _ _ e H).
Qed.

Lemma parent_org_call_raises cirrus project e :
  provider_call_raises cirrus (Some project) has_parent_organization e ->
  result (with_GoogleCloudManager cirrus (Some project) (fun prj =>
            call "has_parent_organization" None (has_parent_organization prj)))
  = Raises e.
Proof.
  intros [H | (g & Hg & Hm)].
  - now apply result_with_unavailable.
  - rewrite (result_with_available _ _ _ g Hg). exact Hm.
Qed.

(** C2: when the provider call of [google_project_has_parent_org],
    [google_project_has_valid_membership] or
    [is_valid_service_account_type] raises an exception, the check returns
    [False]; none of the three ever raises towards its caller. *)
Theorem provider_checks_fail_closed
    (cirrus : Cirrus) (project account_id : string) (e : exn) :
  (provider_call_raises cirrus (Some project) has_parent_organization e ->
   result (google_project_has_parent_org cirrus project) = Returns false)
  /\ (provider_call_raises cirrus (Some project) get_project_membership e ->
      result (google_project_has_valid_membership cirrus project)
      = Returns false)
  /\ (provider_call_raises cirrus (Some project)
        (fun g => get_service_account_type g account_id) e ->
      result (is_valid_service_account_type cirrus project account_id)
      = Returns false)
  /\ result (google_project_has_parent_org cirrus project) <> Raises e
  /\ result (google_project_has_valid_membership cirrus project) <> Raises e
  /\ result (is_valid_service_account_type cirrus project account_id)
     <> Raises e.
Proof.
  repeat split.
  - intros H. apply fail_closed_on_raise with (e := e)
      (args := fun exc => [LStr project; LExc exc]).
    now apply parent_org_call_raises.
  - intros H. apply fail_closed_on_raise with (e := e)
      (args := fun exc => [LStr project; LExc exc]).
    now apply (result_with_call_raises cirrus project get_project_membership
                 "get_project_membership" (fun _ => None)).
  - intros H. apply fail_closed_on_raise with (e := e)
      (args := fun exc => [LStr account_id; LStr project; LExc exc]).
    now apply (result_with_call_raises cirrus project
                 (fun g => get_service_account_type g account_id)
                 "get_service_account_type" (fun _ => Some account_id)).
  - unfold google_project_has_parent_org.
    destruct (fail_closed_returns
                (with_GoogleCloudManager cirrus (Some project) (fun prj =>
                   call "has_parent_organization" None
                        (has_parent_organization prj)))
                "Could not determine if Google project (id: {}) has parent orgdue to error (Details: {})"
                (fun exc => [LStr project; LExc exc])) as [b ->].
    discriminate.
  - unfold google_project_has_valid_membership.
    destruct (fail_closed_returns
                (with_GoogleCloudManager cirrus (Some project) (fun prj =>
                   project_members <-
                     call "get_project_membership" None
                          (get_project_membership prj) ;;
                   ret (only_users_and_service_accounts cirrus
                          project_members)))
                "validity of Google Project (id: {}) membership determined False due to error. Details: {}"
                (fun exc => [LStr project; LExc exc])) as [b ->].
    discriminate.
  - unfold is_valid_service_account_type.
    destruct (fail_closed_returns
                (with_GoogleCloudManager cirrus (Some project) (fun g_mgr =>
                   account_type <-
                     call "get_service_account_type" (Some account_id)
                          (get_service_account_type g_mgr account_id) ;;
                   ret (py_in account_type
                          (ALLOWED_SERVICE_ACCOUNT_TYPES cirrus))))
                "validity of Google service account {} (google project: {}) type determined False due to error. Details: {}"
                (fun exc => [LStr account_id; LStr project; LExc exc]))
      as [b ->].
    discriminate.
Qed.

Lemma provider_checks_fail_closed_witness :
  result (google_project_has_parent_org forbidden_cirrus "p1") = Returns false
  /\ result (google_project_has_valid_membership unreachable_cirrus "p1")
     = Returns false
  /\ result (is_valid_service_account_type forbidden_cirrus "p1" "sa")
     = Returns false.
Proof.
  split; [| split].
  - apply (provider_checks_fail_closed forbidden_cirrus "p1" "sa"
             quota_exceeded).
    right. exists forbidden_manager. split; reflexivity.
  - apply (provider_checks_fail_closed unreachable_cirrus "p1" "sa"
             quota_exceeded).
    left. reflexivity.
  - apply (provider_checks_fail_closed forbidden_cirrus "p1" "sa"
             quota_exceeded).
    right. exists forbidden_manager. split; reflexivity.
Defined.

(** ** Membership and account type *)

Lemma only_users_and_service_accounts_spec cirrus project_members :
  only_users_and_service_accounts cirrus project_members = true
  <-> Forall (is_user_or_service_account cirrus) project_members.
Proof.
  unfold is_user_or_service_account.
  induction project_members as [| member rest IH]; simpl.
  - split; [constructor | reflexivity].
  - destruct (String.eqb_spec (member_type member)
                (GooglePolicyMember_SERVICE_ACCOUNT cirrus)) as [Hs | Hs];
    destruct (String.eqb_spec (member_type member)
                (GooglePolicyMember_USER cirrus)) as [Hu | Hu]; simpl.
    1-3: rewrite IH; split;
         [ intros H; constructor; auto | intros H; now inversion H ].
    split; [discriminate |].
    intros H. inversion H as [| ? ? [Hm | Hm] ?]; contradiction.
Qed.

Lemma valid_membership_result cirrus project g project_members :
  GoogleCloudManager cirrus (Some project) = Returns g ->
  get_project_membership g = Returns project_members ->
  result (google_project_has_valid_membership cirrus project)
  = Returns (only_users_and_service_accounts cirrus project_members).
Proof.
  intros Hg Hm. unfold google_project_has_valid_membership.
  apply result_try_returns.
  rewrite (result_with_available _ _ _ g Hg).
  rewrite (result_bind_returns _ _ project_members); [reflexivity |].
  exact Hm.
Qed.

(** C5: when the membership enumeration succeeds,
    [google_project_has_valid_membership] returns a boolean that is [True]
    exactly when every member is a user or a service account; one member
    of another type makes it [False]. *)
Theorem valid_membership_iff_users_and_service_accounts
    (cirrus : Cirrus) (project : string) (g : Manager)
    (project_members : list GooglePolicyMember) :
  GoogleCloudManager cirrus (Some project) = Returns g ->
  get_project_membership g = Returns project_members ->
  exists b,
    result (google_project_has_valid_membership cirrus project) = Returns b
    /\ (b = true
        <-> Forall (is_user_or_service_account cirrus) project_members)
    /\ (Exists (fun member => ~ is_user_or_service_account cirrus member)
               project_members -> b = false).
Proof.
  intros Hg Hm.
  exists (only_users_and_service_accounts cirrus project_members).
  split; [now apply valid_membership_result with (g := g) |].
  split; [apply only_users_and_service_accounts_spec |].
  intros Hex.
  destruct (only_users_and_service_accounts cirrus project_members) eqn:E;
    [| reflexivity].
  apply only_users_and_service_accounts_spec in E.
  apply Exists_exists in Hex as (member & Hin & Hnot).
  rewrite Forall_forall in E. elim Hnot. now apply E.
Qed.

Lemma valid_membership_iff_users_and_service_accounts_witness :
  exists b,
    result (google_project_has_valid_membership sample_cirrus "p1") = Returns b
    /\ (b = true
        <-> Forall (is_user_or_service_account sample_cirrus)
              [ {| member_type := "user"; member_name := "a@example.org" |};
                {| member_type := "serviceAccount";
                   member_name := "sa@p1.iam.gserviceaccount.com" |} ])
    /\ (Exists (fun member => ~ is_user_or_service_account sample_cirrus member)
              [ {| member_type := "user"; member_name := "a@example.org" |};
                {| member_type := "serviceAccount";
                   member_name := "sa@p1.iam.gserviceaccount.com" |} ]
        -> b = false).
Proof.
  apply (valid_membership_iff_users_and_service_accounts
           sample_cirrus "p1" sample_manager); reflexivity.
Defined.

(** C10: when the membership enumeration succeeds with no member at all,
    [google_project_has_valid_membership] returns [True]. *)
Theorem valid_membership_of_empty_project
    (cirrus : Cirrus) (project : string) (g : Manager) :
  GoogleCloudManager cirrus (Some project) = Returns g ->
  get_project_membership g = Returns [] ->
  result (google_project_has_valid_membership cirrus project) = Returns true.
Proof.
  intros Hg Hm.
  now rewrite (valid_membership_result cirrus project g [] Hg Hm).
Qed.

Lemma valid_membership_of_empty_project_witness :
  result (google_project_has_valid_membership forbidden_cirrus "p1")
  = Returns true.
Proof.
  apply (valid_membership_of_empty_project forbidden_cirrus "p1"
           forbidden_manager); reflexivity.
Defined.

Lemma py_in_allowed cirrus account_type :
  py_in account_type (ALLOWED_SERVICE_ACCOUNT_TYPES cirrus) = true
  <-> account_type = COMPUTE_ENGINE_DEFAULT_SERVICE_ACCOUNT cirrus
      \/ account_type = USER_MANAGED_SERVICE_ACCOUNT cirrus.
Proof.
  unfold py_in, ALLOWED_SERVICE_ACCOUNT_TYPES; simpl.
  rewrite orb_false_r, orb_true_iff, !String.eqb_eq. reflexivity.
Qed.

(** C6: when the type lookup succeeds, [is_valid_service_account_type]
    returns a boolean that is [True] exactly when the reported type is the
    compute-engine-default type or the user-managed type. *)
Theorem valid_service_account_type_iff_allowed
    (cirrus : Cirrus) (project account_id : string) (g : Manager)
    (account_type : string) :
  GoogleCloudManager cirrus (Some project) = Returns g ->
  get_service_account_type g account_id = Returns account_type ->
  exists b,
    result (is_valid_service_account_type cirrus project account_id)
    = Returns b
    /\ (b = true
        <-> account_type = COMPUTE_ENGINE_DEFAULT_SERVICE_ACCOUNT cirrus
            \/ account_type = USER_MANAGED_SERVICE_ACCOUNT cirrus).
Proof.
  intros Hg Ht.
  exists (py_in account_type (ALLOWED_SERVICE_ACCOUNT_TYPES cirrus)).
  split; [| apply py_in_allowed].
  unfold is_valid_service_account_type.
  apply result_try_returns.
  rewrite (result_with_available _ _ _ g Hg).
  rewrite (result_bind_returns _ _ account_type); [reflexivity | exact Ht].
Qed.

Lemma valid_service_account_type_iff_allowed_witness :
  exists b,
    result (is_valid_service_account_type sample_cirrus "p1" "sa") = Returns b
    /\ (b = true
        <-> "user-managed" = COMPUTE_ENGINE_DEFAULT_SERVICE_ACCOUNT sample_cirrus
            \/ "user-managed" = USER_MANAGED_SERVICE_ACCOUNT sample_cirrus).
Proof.
  apply (valid_service_account_type_iff_allowed
           sample_cirrus "p1" "sa" sample_manager); reflexivity.
Defined.

(** ** External access of a service account *)

Lemma truthy_true_iff {A} (l : list A) : truthy l = true <-> l <> [].
Proof.
  destruct l; simpl; split; congruence.
Qed.

Lemma truthy_nodup_of_member (x : string) (l : list string) :
  In x l -> truthy (nodup string_dec l) = true.
Proof.
  intros H. apply (nodup_In string_dec) in H.
  destruct (nodup string_dec l); [contradiction | reflexivity].
Qed.

(** The set of the roles of some bindings is empty only when there is no
    binding. *)
Lemma truthy_roles_of_bindings (listed : list GooglePolicyBinding) :
  truthy (nodup string_dec (map role listed)) = truthy listed.
Proof.
  destruct listed as [| binding rest]; [reflexivity |].
  apply (truthy_nodup_of_member (role binding)). now left.
Qed.

Lemma parse_bindings_truthy parse listed parsed :
  parse_bindings parse listed = Returns parsed ->
  truthy parsed = truthy listed.
Proof.
  destruct listed as [| binding rest]; simpl.
  - now intros [= <-].
  - destruct (parse binding); [| discriminate].
    destruct (parse_bindings parse rest); [| discriminate].
    now intros [= <-].
Qed.

(** A policy that was read has roles exactly when its body lists a
    binding, whatever the parser made of the bindings. *)
Lemma roles_of_read_policy cirrus body policy :
  from_json cirrus body = Returns policy ->
  truthy (roles policy) = truthy (role_set body).
Proof.
  unfold from_json, role_set, roles.
  destruct (bindings body) as [listed |]; [| discriminate].
  destruct (parse_bindings (parse_binding cirrus) listed) as [parsed | e]
    eqn:Hparsed; [| discriminate].
  intros [= <-]. simpl. rewrite !truthy_roles_of_bindings.
  now apply parse_bindings_truthy with (parse := parse_binding cirrus).
Qed.

Lemma external_access_block_non_200 cirrus g service_account response :
  get_service_account_policy g service_account = Returns response ->
  status_code response <> 200 ->
  result (external_access_block cirrus g service_account)
  = Raises (GoogleAPIError
              ("Unable to get IAM policy for service account {}"
                 ++ newline ++ "{}.")%string
              [FStr service_account; FPolicy (json response)]).
Proof.
  intros Hp Hs. unfold external_access_block, call, bind.
  rewrite Hp. apply Z.eqb_neq in Hs. now rewrite Hs.
Qed.


(** With role bindings present the key material is not even looked up. *)
Lemma external_access_block_roles cirrus g service_account response policy :
  get_service_account_policy g service_account = Returns response ->
  status_code response = 200 ->
  from_json cirrus (json response) = Returns policy ->
  truthy (role_set (json response)) = true ->
  external_access_block cirrus g service_account
  = (Returns (Some true),
     [Call "get_service_account_policy" (Some service_account)]).
Proof.
  intros Hp Hs Hpolicy Hr. unfold external_access_block, call, bind.
  rewrite Hp. apply Z.eqb_eq in Hs. rewrite Hs. simpl.
  unfold has_bindings, lift.
  rewrite Hpolicy, (roles_of_read_policy _ _ _ Hpolicy), Hr.
  unfold role_set in Hr.
  destruct (bindings (json response)); [reflexivity | discriminate].
Qed.

(** C3: when the policy fetch answers with a status other than 200,
    [service_account_has_external_access] raises [GoogleAPIError]; it
    returns no boolean. *)
Theorem external_access_non_200_raises
    (cirrus : Cirrus) (service_account : string) (g : Manager)
    (response : Response policy_json) :
  GoogleCloudManager cirrus None = Returns g ->
  get_service_account_policy g service_account = Returns response ->
  status_code response <> 200 ->
  result (service_account_has_external_access cirrus service_account)
  = Raises (GoogleAPIError
              ("Unable to get IAM policy for service account {}"
                 ++ newline ++ "{}.")%string
              [FStr service_account; FPolicy (json response)])
  /\ forall b,
       result (service_account_has_external_access cirrus service_account)
       <> Returns b.
Proof.
  intros Hg Hp Hs.
  assert (H : result (service_account_has_external_access cirrus
                        service_account)
              = Raises (GoogleAPIError
                          ("Unable to get IAM policy for service account {}"
                             ++ newline ++ "{}.")%string
                          [FStr service_account; FPolicy (json response)])).
  { unfold service_account_has_external_access.
    apply result_bind_raises.
    rewrite (result_with_available _ _ _ g Hg).
    now apply external_access_block_non_200. }
  split; [exact H |].
  intros b Hb. rewrite H in Hb. discriminate Hb.
Qed.

Lemma external_access_non_200_raises_witness :
  result (service_account_has_external_access forbidden_cirrus "sa")
  = Raises (GoogleAPIError
              ("Unable to get IAM policy for service account {}"
                 ++ newline ++ "{}.")%string
              [FStr "sa"; FPolicy {| bindings := None; etag := "" |}])
  /\ forall b,
       result (service_account_has_external_access forbidden_cirrus "sa")
       <> Returns b.
Proof.
  apply (external_access_non_200_raises forbidden_cirrus "sa"
           forbidden_manager
           {| status_code := 403;
              json := {| bindings := None; etag := "" |} |}).
  - reflexivity.
  - reflexivity.
  - discriminate.
Defined.




(** ** Fetching the service accounts of a project *)

Section Fetch.

Variable g_mgr : Manager.
Variable responses : string -> Response dict.

Lemma fetches_answer_tail account rest :
  fetches_answer g_mgr responses (account :: rest) ->
  fetches_answer g_mgr responses rest.
Proof.
  intros H a Ha. apply H. now right.
Qed.

Lemma fetch_step account rest acc :
  fetches_answer g_mgr responses (account :: rest) ->
  result (fetch_service_accounts g_mgr (account :: rest) acc)
  = if negb (fetched_status responses account =? 200)
    then Raises (GoogleAPIError
                   ("Unable to get service account {}" ++ newline ++ "{}.")%string
                   [FStr (account_id_of account); FDict (fetched_json responses account)])
    else result (fetch_service_accounts g_mgr rest
                   (acc ++ [fetched_json responses account])).
Proof.
  intros H. simpl. unfold call, bind, fetched_status, fetched_json.
  rewrite (H account (or_introl eq_refl)).
  destruct (negb (status_code (responses (account_id_of account)) =? 200));
    simpl; [reflexivity |].
  now destruct (fetch_service_accounts g_mgr rest _).
Qed.

Lemma fetch_all_200 service_accounts : forall acc,
  fetches_answer g_mgr responses service_accounts ->
  Forall (fun account => fetched_status responses account = 200)
         service_accounts ->
  result (fetch_service_accounts g_mgr service_accounts acc)
  = Returns (acc ++ map (fetched_json responses) service_accounts).
Proof.
  induction service_accounts as [| account rest IH]; intros acc Hans Hall.
  - simpl. now rewrite app_nil_r.
  - rewrite (fetch_step account rest acc Hans).
    inversion Hall as [| ? ? Hhead Htail]; subst.
    rewrite Hhead. simpl.
    rewrite (IH _ (fetches_answer_tail _ _ Hans) Htail).
    now rewrite <- app_assoc.
Qed.

Lemma fetch_some_non_200 service_accounts : forall acc,
  fetches_answer g_mgr responses service_accounts ->
  Exists (fun account => fetched_status responses account <> 200) service_accounts ->
  exists account,
    In account service_accounts
    /\ fetched_status responses account <> 200
    /\ result (fetch_service_accounts g_mgr service_accounts acc)
       = Raises (GoogleAPIError
                   ("Unable to get service account {}" ++ newline ++ "{}.")%string
                   [FStr (account_id_of account);
                    FDict (fetched_json responses account)]).
Proof.
  induction service_accounts as [| account rest IH]; intros acc Hans Hex.
  - inversion Hex.
  - rewrite (fetch_step account rest acc Hans).
    destruct (Z.eqb_spec (fetched_status responses account) 200) as [Heq | Hne]; simpl.
    + inversion Hex as [? ? Hhead | ? ? Htail]; subst; [contradiction |].
      destruct (IH (acc ++ [fetched_json responses account])
                   (fetches_answer_tail _ _ Hans) Htail)
        as (bad & Hin & Hbad & Hres).
      exists bad. split; [now right |]. split; assumption.
    + exists account. split; [now left |]. split; [assumption | reflexivity].
Qed.

End Fetch.

(** C8: with every enumerated account fetched,
    [do_get_service_account_from_google_project] raises [GoogleAPIError]
    as soon as one fetch answers with a status other than 200, and
    otherwise returns the JSON bodies of the fetches, one per enumerated
    account and in the order of the enumeration. *)
Theorem get_service_accounts_raises_or_returns_all
    (cirrus : Cirrus) (project : string) (g : Manager)
    (service_accounts : list dict) (responses : string -> Response dict) :
  GoogleCloudManager cirrus (Some project) = Returns g ->
  get_all_service_accounts g = Returns service_accounts ->
  fetches_answer g responses service_accounts ->
  (Exists (fun account => fetched_status responses account <> 200)
          service_accounts ->
   exists account,
     In account service_accounts
     /\ fetched_status responses account <> 200
     /\ result (do_get_service_account_from_google_project cirrus project)
        = Raises (GoogleAPIError
                    ("Unable to get service account {}" ++ newline ++ "{}.")%string
                    [FStr (account_id_of account);
                     FDict (fetched_json responses account)]))
  /\ (Forall (fun account => fetched_status responses account = 200)
             service_accounts ->
      result (do_get_service_account_from_google_project cirrus project)
      = Returns (map (fetched_json responses) service_accounts)
      /\ length (map (fetched_json responses) service_accounts)
         = length service_accounts).
Proof.
  intros Hg Hall Hans.
  assert (Hres : result (do_get_service_account_from_google_project cirrus
                           project)
                 = result (fetch_service_accounts g service_accounts [])).
  { unfold do_get_service_account_from_google_project.
    rewrite (result_with_available _ _ _ g Hg).
    apply (result_bind_returns _
             (fun accounts => fetch_service_accounts g accounts [])
             service_accounts).
    exact Hall. }
  rewrite Hres. split.
  - intros Hex. now apply fetch_some_non_200.
  - intros H200. split; [| apply length_map].
    now rewrite (fetch_all_200 g responses service_accounts [] Hans H200).
Qed.

Lemma get_service_accounts_raises_or_returns_all_witness :
  result (do_get_service_account_from_google_project sample_cirrus "p1")
  = Returns [ [("email", "sa@p1.iam.gserviceaccount.com")];
              [("email", "sa@p1.iam.gserviceaccount.com")] ]
  /\ exists account,
       result (do_get_service_account_from_google_project forbidden_cirrus
                 "p1")
       = Raises (GoogleAPIError
                   ("Unable to get service account {}" ++ newline ++ "{}.")%string
                   [FStr (account_id_of account);
                    FDict [("error", "forbidden")]]).
Proof.
  split.
  - apply (get_service_accounts_raises_or_returns_all sample_cirrus "p1"
             sample_manager [sample_account; sample_account]
             (fun account_id =>
                {| status_code := 200; json := [("email", account_id)] |})).
    + reflexivity.
    + reflexivity.
    + intros account _. reflexivity.
    + repeat constructor.
  - destruct (get_service_accounts_raises_or_returns_all forbidden_cirrus "p1"
                forbidden_manager [sample_account]
                (fun _ => {| status_code := 403;
                             json := [("error", "forbidden")] |})
                eq_refl eq_refl (fun account _ => eq_refl)) as [Hraise _].
    destruct Hraise as (account & _ & _ & Hres).
    + constructor. unfold fetched_status; simpl. discriminate.
    + exists account. exact Hres.
Defined.

(** * Further properties of the code *)

(** ** The account id taken from a resource name *)

Lemma split_nonempty sep s : split sep s <> [].
Proof.
  destruct s as [| c s']; simpl; [discriminate |].
  destruct (Ascii.eqb c sep); [discriminate |].
  destruct (split sep s'); discriminate.
Qed.

Lemma join_cons_char sep c piece rest :
  join sep (String c piece :: rest) = String c (join sep (piece :: rest)).
Proof.
  destruct rest; reflexivity.
Qed.

(** Splitting and joining again gives the string back. *)
Lemma join_split sep s : join sep (split sep s) = s.
Proof.
  induction s as [| c s' IH]; simpl; [reflexivity |].
  destruct (Ascii.eqb c sep) eqn:E.
  - apply Ascii.eqb_eq in E. subst c.
    destruct (split sep s') as [| h t] eqn:Hs.
    + now elim (split_nonempty sep s').
    + simpl (join sep (EmptyString :: h :: t)). simpl in IH |- *.
      now rewrite IH.
  - destruct (split sep s') as [| h t] eqn:Hs.
    + now elim (split_nonempty sep s').
    + rewrite join_cons_char. now rewrite IH.
Qed.

Lemma split_pieces_without_separator sep s :
  Forall (fun piece => contains sep piece = false) (split sep s).
Proof.
  induction s as [| c s' IH]; simpl.
  - repeat constructor.
  - destruct (Ascii.eqb c sep) eqn:E.
    + constructor; [reflexivity | exact IH].
    + destruct (split sep s') as [| h t].
      * repeat constructor. simpl. now rewrite E.
      * inversion IH as [| ? ? Hh Ht]; subst.
        constructor; [| exact Ht]. simpl. now rewrite E, Hh.
Qed.

Lemma append_separator_assoc (a b d : string) (c : ascii) :
  ((a ++ String c b) ++ d)%string = (a ++ String c (b ++ d))%string.
Proof.
  induction a as [| x a' IH]; simpl; [reflexivity | now rewrite IH].
Qed.

Lemma join_ends_with_last sep pieces :
  pieces <> [] ->
  join sep pieces = last pieces EmptyString
  \/ exists prefix,
       join sep pieces = (prefix ++ String sep (last pieces EmptyString))%string.
Proof.
  induction pieces as [| piece rest IH]; intros Hne; [contradiction |].
  destruct rest as [| next rest'].
  - now left.
  - right.
    change (join sep (piece :: next :: rest'))
      with (piece ++ String sep (join sep (next :: rest')))%string.
    change (last (piece :: next :: rest') EmptyString)
      with (last (next :: rest') EmptyString).
    destruct IH as [Hlast | [prefix Hprefix]]; [discriminate | |].
    + exists piece. now rewrite Hlast.
    + exists (piece ++ String sep prefix)%string.
      rewrite Hprefix. symmetry. apply append_separator_assoc.
Qed.

Lemma last_in_nonempty (pieces : list string) :
  pieces <> [] -> In (last pieces EmptyString) pieces.
Proof.
  induction pieces as [| piece rest IH]; intros Hne; [contradiction |].
  destruct rest as [| next rest']; [now left |].
  right. apply IH. discriminate.
Qed.

(** X1: the account id is what follows the last slash of the [name] of
    the account: it contains no slash, and the name is either the id
    itself or some prefix, a slash, and the id. *)
Theorem account_id_is_after_last_slash (account : dict) :
  contains "/" (account_id_of account) = false
  /\ (dict_get account "name" "" = account_id_of account
      \/ exists prefix,
           dict_get account "name" ""
           = (prefix ++ String "/" (account_id_of account))%string).
Proof.
  unfold account_id_of, last_item.
  set (name := dict_get account "name" "").
  split.
  - pose proof (split_pieces_without_separator "/" name) as Hall.
    rewrite Forall_forall in Hall. apply Hall.
    apply last_in_nonempty, split_nonempty.
  - destruct (join_ends_with_last "/" (split "/" name)
                (split_nonempty "/" name)) as [H | [prefix H]];
      rewrite join_split in H; [left | right; exists prefix]; exact H.
Qed.

Lemma dict_get_missing (d : dict) key default :
  (forall value, ~ In (key, value) d) -> dict_get d key default = default.
Proof.
  induction d as [| [k v] rest IH]; intros Hno; simpl; [reflexivity |].
  destruct (String.eqb_spec k key) as [-> | Hne].
  - elim (Hno v). now left.
  - apply IH. intros value Hin. apply (Hno value). now right.
Qed.

(** X2: an enumerated account without a [name] key yields the empty
    account id, which is what gets fetched for it. *)
Theorem account_id_of_unnamed_account (account : dict) :
  (forall value, ~ In ("name", value) account) ->
  account_id_of account = ""
  /\ fetch_call account = Call "get_service_account" (Some "").
Proof.
  intros Hno. unfold fetch_call, account_id_of.
  rewrite (dict_get_missing account "name" "" Hno). split; reflexivity.
Qed.

Lemma account_id_of_unnamed_account_witness :
  account_id_of [("email", "sa@p1.iam.gserviceaccount.com")] = ""
  /\ fetch_call [("email", "sa@p1.iam.gserviceaccount.com")]
     = Call "get_service_account" (Some "").
Proof.
  apply (account_id_of_unnamed_account
           [("email", "sa@p1.iam.gserviceaccount.com")]).
  intros value [H | []]. discriminate H.
Defined.

(** ** The fetch loop, with its provider calls *)

(** Accounts that are fetched with status 200 are passed one call each,
    their bodies accumulated, and the loop goes on with the rest. *)
Lemma fetch_prefix g responses pre : forall rest acc,
  fetches_answer g responses pre ->
  Forall (fun account => fetched_status responses account = 200) pre ->
  fetch_service_accounts g (pre ++ rest) acc
  = (result (fetch_service_accounts g rest
               (acc ++ map (fetched_json responses) pre)),
     map fetch_call pre
     ++ trace (fetch_service_accounts g rest
                 (acc ++ map (fetched_json responses) pre))).
Proof.
  induction pre as [| account pre' IH]; intros rest acc Hans Hall.
  - simpl. rewrite app_nil_r. now destruct (fetch_service_accounts g rest acc).
  - inversion Hall as [| ? ? Hhead Htail]; subst.
    simpl. unfold call, bind.
    rewrite (Hans account (or_introl eq_refl)).
    unfold fetched_status in Hhead. rewrite Hhead. simpl.
    rewrite (IH rest _ (fetches_answer_tail g responses _ _ Hans) Htail).
    unfold fetched_json at 1 3. rewrite <- !app_assoc. reflexivity.
Qed.

Lemma with_manager_run {A} cirrus project (body : Manager -> Py A) g :
  GoogleCloudManager cirrus project = Returns g ->
  with_GoogleCloudManager cirrus project body
  = (result (body g), Enter project :: trace (body g) ++ [Exit]).
Proof.
  unfold with_GoogleCloudManager. intros ->. now destruct (body g).
Qed.

Lemma get_service_accounts_run cirrus project g service_accounts :
  GoogleCloudManager cirrus (Some project) = Returns g ->
  get_all_service_accounts g = Returns service_accounts ->
  do_get_service_account_from_google_project cirrus project
  = (result (fetch_service_accounts g service_accounts []),
     Enter (Some project) :: Call "get_all_service_accounts" None
     :: trace (fetch_service_accounts g service_accounts []) ++ [Exit]).
Proof.
  intros Hg Hall. unfold do_get_service_account_from_google_project.
  rewrite (with_manager_run _ _ _ g Hg). unfold call, bind. rewrite Hall.
  now destruct (fetch_service_accounts g service_accounts []).
Qed.

(** X3: the loop stops at the first account whose fetch answers with a
    status other than 200: the error names that account, the accounts
    after it are never fetched (nothing is assumed of them), and the
    manager is left. *)
Theorem get_service_accounts_stops_at_first_failure
    (cirrus : Cirrus) (project : string) (g : Manager)
    (responses : string -> Response dict)
    (fetched : list dict) (failing : dict) (unfetched : list dict)
    (response : Response dict) :
  GoogleCloudManager cirrus (Some project) = Returns g ->
  get_all_service_accounts g = Returns (fetched ++ failing :: unfetched) ->
  fetches_answer g responses fetched ->
  Forall (fun account => fetched_status responses account = 200) fetched ->
  get_service_account g (account_id_of failing) = Returns response ->
  status_code response <> 200 ->
  do_get_service_account_from_google_project cirrus project
  = (Raises (GoogleAPIError
               ("Unable to get service account {}" ++ newline ++ "{}.")%string
               [FStr (account_id_of failing); FDict (json response)]),
     Enter (Some project) :: Call "get_all_service_accounts" None
     :: map fetch_call (fetched ++ [failing]) ++ [Exit]).
Proof.
  intros Hg Hall Hans H200 Hfail Hstatus.
  rewrite (get_service_accounts_run _ _ g _ Hg Hall).
  rewrite (fetch_prefix g responses fetched _ _ Hans H200).
  simpl. unfold call, bind. rewrite Hfail.
  apply Z.eqb_neq in Hstatus. rewrite Hstatus. simpl.
  now rewrite map_app.
Qed.

Lemma get_service_accounts_stops_at_first_failure_witness :
  do_get_service_account_from_google_project
    (cirrus_with (Returns partly_failing_manager)) "p1"
  = (Raises (GoogleAPIError
               ("Unable to get service account {}" ++ newline ++ "{}.")%string
               [FStr "bad"; FDict []]),
     [Enter (Some "p1"); Call "get_all_service_accounts" None;
      Call "get_service_account" (Some "good");
      Call "get_service_account" (Some "bad"); Exit]).
Proof.
  apply (get_service_accounts_stops_at_first_failure
           (cirrus_with (Returns partly_failing_manager)) "p1"
           partly_failing_manager
           (fun _ => {| status_code := 200; json := good_account |})
           [good_account] bad_account [broken_account]
           {| status_code := 403; json := [] |}).
  - reflexivity.
  - reflexivity.
  - intros account [<- | []]. reflexivity.
  - repeat constructor.
  - reflexivity.
  - discriminate.
Defined.

(** X4: [do_get_service_account_from_google_project] has no handler: an
    exception raised when the manager is obtained, by the enumeration, or
    by the fetch of an account reached by the loop comes out unchanged,
    and the bodies fetched so far are lost. *)
Theorem get_service_accounts_propagates
    (cirrus : Cirrus) (project : string) (e : exn) :
  GoogleCloudManager cirrus (Some project) = Raises e
  \/ (exists g,
        GoogleCloudManager cirrus (Some project) = Returns g
        /\ get_all_service_accounts g = Raises e)
  \/ (exists g responses fetched failing unfetched,
        GoogleCloudManager cirrus (Some project) = Returns g
        /\ get_all_service_accounts g
           = Returns (fetched ++ failing :: unfetched)
        /\ fetches_answer g responses fetched
        /\ Forall (fun account => fetched_status responses account = 200)
                  fetched
        /\ get_service_account g (account_id_of failing) = Raises e) ->
  result (do_get_service_account_from_google_project cirrus project)
  = Raises e.
Proof.
  intros [Hg | [(g & Hg & Hall)
               | (g & responses & fetched & failing & unfetched
                  & Hg & Hall & Hans & H200 & Hfail)]].
  - now apply result_with_unavailable.
  - unfold do_get_service_account_from_google_project.
    rewrite (result_with_available _ _ _ g Hg).
    now apply result_bind_raises.
  - rewrite (get_service_accounts_run _ _ g _ Hg Hall).
    rewrite (fetch_prefix g responses fetched _ _ Hans H200).
    simpl. unfold call, bind. now rewrite Hfail.
Qed.

Lemma get_service_accounts_propagates_witness :
  result (do_get_service_account_from_google_project unreachable_cirrus "p1")
  = Raises quota_exceeded.
Proof.
  apply (get_service_accounts_propagates unreachable_cirrus "p1"
           quota_exceeded).
  left. reflexivity.
Defined.

(** X5: when every fetch answers 200, the provider sees the enumeration
    and then exactly one fetch per enumerated account, in the order of
    the enumeration, before the manager is left; a project without
    service accounts yields the empty list without any fetch. *)
Theorem get_service_accounts_one_fetch_per_account
    (cirrus : Cirrus) (project : string) (g : Manager)
    (responses : string -> Response dict) (service_accounts : list dict) :
  GoogleCloudManager cirrus (Some project) = Returns g ->
  get_all_service_accounts g = Returns service_accounts ->
  fetches_answer g responses service_accounts ->
  Forall (fun account => fetched_status responses account = 200)
         service_accounts ->
  do_get_service_account_from_google_project cirrus project
  = (Returns (map (fetched_json responses) service_accounts),
     Enter (Some project) :: Call "get_all_service_accounts" None
     :: map fetch_call service_accounts ++ [Exit])
  /\ (service_accounts = [] ->
      do_get_service_account_from_google_project cirrus project
      = (Returns [],
         [Enter (Some project); Call "get_all_service_accounts" None; Exit])).
Proof.
  intros Hg Hall Hans H200.
  assert (Hrun : do_get_service_account_from_google_project cirrus project
                 = (Returns (map (fetched_json responses) service_accounts),
                    Enter (Some project)
                    :: Call "get_all_service_accounts" None
                    :: map fetch_call service_accounts ++ [Exit])).
  { rewrite (get_service_accounts_run _ _ g _ Hg Hall).
    pose proof (fetch_prefix g responses service_accounts [] [] Hans H200)
      as Hloop.
    rewrite app_nil_r in Hloop. rewrite Hloop. simpl.
    now rewrite app_nil_r. }
  split; [exact Hrun |].
  intros ->. exact Hrun.
Qed.

Lemma get_service_accounts_one_fetch_per_account_witness :
  do_get_service_account_from_google_project sample_cirrus "p1"
  = (Returns (map (fetched_json (fun account_id =>
                     {| status_code := 200; json := [("email", account_id)] |}))
                  [sample_account; sample_account]),
     Enter (Some "p1") :: Call "get_all_service_accounts" None
     :: map fetch_call [sample_account; sample_account] ++ [Exit]).
Proof.
  apply (get_service_accounts_one_fetch_per_account sample_cirrus "p1"
           sample_manager
           (fun account_id =>
              {| status_code := 200; json := [("email", account_id)] |})
           [sample_account; sample_account]).
  - reflexivity.
  - reflexivity.
  - intros account _. reflexivity.
  - repeat constructor.
Defined.

(** ** External access: what is asked of the provider, and errors *)

(** X6: with status 200, a body that [GooglePolicy.from_json] reads into
    a policy, and at least one role binding, the function returns [True]
    after the policy fetch alone: the key listing is never requested, so
    nothing is assumed of it. *)
Theorem external_access_with_roles_skips_keys
    (cirrus : Cirrus) (service_account : string) (g : Manager)
    (response : Response policy_json) (policy : GooglePolicy) :
  GoogleCloudManager cirrus None = Returns g ->
  get_service_account_policy g service_account = Returns response ->
  status_code response = 200 ->
  from_json cirrus (json response) = Returns policy ->
  role_set (json response) <> [] ->
  service_account_has_external_access cirrus service_account
  = (Returns true,
     [Enter None; Call "get_service_account_policy" (Some service_account);
      Exit]).
Proof.
  intros Hg Hp Hs Hpolicy Hroles.
  apply truthy_true_iff in Hroles.
  unfold service_account_has_external_access.
  rewrite (with_manager_run _ _ _ g Hg).
  now rewrite (external_access_block_roles cirrus g service_account response
                 policy Hp Hs Hpolicy Hroles).
Qed.

Lemma external_access_with_roles_skips_keys_witness :
  service_account_has_external_access
    (cirrus_with (Returns owner_bound_manager)) "sa"
  = (Returns true,
     [Enter None; Call "get_service_account_policy" (Some "sa"); Exit]).
Proof.
  apply (external_access_with_roles_skips_keys
           (cirrus_with (Returns owner_bound_manager)) "sa"
           owner_bound_manager owner_policy
           {| policy_bindings :=
                [ {| role := "roles/owner";
                     members := ["user:a@example.org"] |} ] |}).
  - reflexivity.
  - reflexivity.
  - reflexivity.
  - reflexivity.
  - discriminate.
Defined.

(** X7: unlike the three fail-closed checks,
    [service_account_has_external_access] lets every provider exception
    through: from obtaining the manager, from the policy fetch, and from
    the key listing when that is reached (status 200 and no role). *)
Theorem external_access_propagates
    (cirrus : Cirrus) (service_account : string) (e : exn) :
  GoogleCloudManager cirrus None = Raises e
  \/ (exists g,
        GoogleCloudManager cirrus None = Returns g
        /\ get_service_account_policy g service_account = Raises e)
  \/ (exists g response,
        GoogleCloudManager cirrus None = Returns g
        /\ get_service_account_policy g service_account = Returns response
        /\ status_code response = 200
        /\ role_set (json response) = []
        /\ get_service_account_keys_info g service_account = Raises e) ->
  result (service_account_has_external_access cirrus service_account)
  = Raises e.
Proof.
  intros H. unfold service_account_has_external_access.
  apply result_bind_raises.
  destruct H as [Hg | [(g & Hg & Hp)
                      | (g & response & Hg & Hp & Hs & Hroles & Hk)]].
  - now apply result_with_unavailable.
  - rewrite (result_with_available _ _ _ g Hg).
    unfold external_access_block. now apply result_bind_raises.
  - rewrite (result_with_available _ _ _ g Hg).
    unfold external_access_block, call, bind. rewrite Hp, Hk.
    apply Z.eqb_eq in Hs. rewrite Hs. simpl.
    unfold role_set in Hroles.
    unfold has_bindings, from_json, roles, lift, ret.
    destruct (bindings (json response)) as [listed |]; simpl;
      [| reflexivity].
    assert (Hnone : listed = []).
    { destruct listed as [| binding rest]; [reflexivity |].
      pose proof (truthy_roles_of_bindings (binding :: rest)) as Ht.
      rewrite Hroles in Ht. discriminate Ht. }
    subst listed. reflexivity.
Qed.

Lemma external_access_propagates_witness :
  result (service_account_has_external_access
            (cirrus_with (Returns partly_failing_manager)) "sa")
  = Raises quota_exceeded.
Proof.
  apply (external_access_propagates
           (cirrus_with (Returns partly_failing_manager)) "sa"
           quota_exceeded).
  right. left. exists partly_failing_manager. split; reflexivity.
Defined.

(** ** The fail-closed checks: complete behaviour *)

Ltac run_check Hg :=
  unfold google_project_has_parent_org, google_project_has_valid_membership,
    is_valid_service_account_type, try_except, with_GoogleCloudManager,
    call, bind, logger_debug, emit, ret, debug_lines, result, trace;
  rewrite Hg; simpl.

(** X8: when the provider call of one of the three checks raises, the
    check writes exactly one debug line, which carries the identifiers it
    was called with and the exception that was raised. *)
Theorem failed_checks_log_the_exception
    (cirrus : Cirrus) (project account_id : string) (e : exn) :
  (provider_call_raises cirrus (Some project) has_parent_organization e ->
   debug_lines (trace (google_project_has_parent_org cirrus project))
   = [Debug
        "Could not determine if Google project (id: {}) has parent orgdue to error (Details: {})"
        [LStr project; LExc e]])
  /\ (provider_call_raises cirrus (Some project) get_project_membership e ->
      debug_lines (trace (google_project_has_valid_membership cirrus project))
      = [Debug
           "validity of Google Project (id: {}) membership determined False due to error. Details: {}"
           [LStr project; LExc e]])
  /\ (provider_call_raises cirrus (Some project)
        (fun g => get_service_account_type g account_id) e ->
      debug_lines
        (trace (is_valid_service_account_type cirrus project account_id))
      = [Debug
           "validity of Google service account {} (google project: {}) type determined False due to error. Details: {}"
           [LStr account_id; LStr project; LExc e]]).
Proof.
  repeat split; intros [Hg | (g & Hg & Hm)]; run_check Hg;
    try reflexivity; rewrite Hm; reflexivity.
Qed.

Lemma failed_checks_log_the_exception_witness :
  debug_lines (trace (google_project_has_parent_org forbidden_cirrus "p1"))
  = [Debug
       "Could not determine if Google project (id: {}) has parent orgdue to error (Details: {})"
       [LStr "p1"; LExc quota_exceeded]]
  /\ debug_lines
       (trace (google_project_has_valid_membership unreachable_cirrus "p1"))
     = [Debug
          "validity of Google Project (id: {}) membership determined False due to error. Details: {}"
          [LStr "p1"; LExc quota_exceeded]]
  /\ debug_lines
       (trace (is_valid_service_account_type forbidden_cirrus "p1" "sa"))
     = [Debug
          "validity of Google service account {} (google project: {}) type determined False due to error. Details: {}"
          [LStr "sa"; LStr "p1"; LExc quota_exceeded]].
Proof.
  split; [| split].
  - apply (failed_checks_log_the_exception forbidden_cirrus "p1" "sa"
             quota_exceeded).
    right. exists forbidden_manager. split; reflexivity.
  - apply (failed_checks_log_the_exception unreachable_cirrus "p1" "sa"
             quota_exceeded).
    left. reflexivity.
  - apply (failed_checks_log_the_exception forbidden_cirrus "p1" "sa"
             quota_exceeded).
    right. exists forbidden_manager. split; reflexivity.
Defined.

(** X9: when the provider answers, each of the three checks makes its one
    call between entering and leaving the manager and writes no log
    line. *)
Theorem answered_checks_make_one_call_and_log_nothing
    (cirrus : Cirrus) (project account_id : string) (g : Manager) :
  GoogleCloudManager cirrus (Some project) = Returns g ->
  (forall answer,
     has_parent_organization g = Returns answer ->
     google_project_has_parent_org cirrus project
     = (Returns answer,
        [Enter (Some project); Call "has_parent_organization" None; Exit]))
  /\ (forall project_members,
        get_project_membership g = Returns project_members ->
        trace (google_project_has_valid_membership cirrus project)
        = [Enter (Some project); Call "get_project_membership" None; Exit])
  /\ (forall account_type,
        get_service_account_type g account_id = Returns account_type ->
        trace (is_valid_service_account_type cirrus project account_id)
        = [Enter (Some project);
           Call "get_service_account_type" (Some account_id); Exit]).
Proof.
  intros Hg. repeat split; intros answer Hm; run_check Hg; rewrite Hm;
    reflexivity.
Qed.

Lemma answered_checks_make_one_call_and_log_nothing_witness :
  google_project_has_parent_org sample_cirrus "p1"
  = (Returns false,
     [Enter (Some "p1"); Call "has_parent_organization" None; Exit]).
Proof.
  apply (answered_checks_make_one_call_and_log_nothing sample_cirrus "p1" "sa"
           sample_manager); reflexivity.
Defined.

(** X10: [google_project_has_parent_org] returns [True] only on positive
    evidence: exactly when the manager is obtained and the provider
    answers that the project has a parent organization. *)
Theorem parent_org_true_iff_provider_says_so
    (cirrus : Cirrus) (project : string) :
  result (google_project_has_parent_org cirrus project) = Returns true
  <-> exists g,
        GoogleCloudManager cirrus (Some project) = Returns g
        /\ has_parent_organization g = Returns true.
Proof.
  destruct (GoogleCloudManager cirrus (Some project)) as [g | e] eqn:Hg.
  - destruct (has_parent_organization g) as [answer | e] eqn:Hm.
    + run_check Hg. rewrite Hm. simpl. split.
      * intros [= ->]. now exists g.
      * intros (g' & [= <-] & Hm'). now rewrite Hm in Hm'.
    + run_check Hg. rewrite Hm. simpl. split; [discriminate |].
      intros (g' & [= <-] & Hm'). rewrite Hm in Hm'. discriminate.
  - run_check Hg. split; [discriminate |].
    intros (g' & Hg' & _). discriminate.
Qed.

(** X11: [google_project_has_valid_membership] returns [True] exactly
    when the manager is obtained, the enumeration answers, and every
    enumerated member is a user or a service account. *)
Theorem valid_membership_true_iff
    (cirrus : Cirrus) (project : string) :
  result (google_project_has_valid_membership cirrus project) = Returns true
  <-> exists g project_members,
        GoogleCloudManager cirrus (Some project) = Returns g
        /\ get_project_membership g = Returns project_members
        /\ Forall (is_user_or_service_account cirrus) project_members.
Proof.
  destruct (GoogleCloudManager cirrus (Some project)) as [g | e] eqn:Hg.
  - destruct (get_project_membership g) as [ms | e] eqn:Hm.
    + rewrite (valid_membership_result cirrus project g ms Hg Hm). split.
      * intros [= H]. exists g, ms. repeat split; auto.
        now apply only_users_and_service_accounts_spec.
      * intros (g' & ms' & [= <-] & Hm' & Hall).
        rewrite Hm in Hm'. injection Hm' as <-.
        apply only_users_and_service_accounts_spec in Hall. now rewrite Hall.
    + run_check Hg. rewrite Hm. simpl. split; [discriminate |].
      intros (g' & ms' & [= <-] & Hm' & _). rewrite Hm in Hm'. discriminate.
  - run_check Hg. split; [discriminate |].
    intros (g' & ms' & Hg' & _). discriminate.
Qed.

(** X12: [is_valid_service_account_type] returns [True] exactly when the
    manager is obtained, the type lookup answers, and the reported type is
    one of the two allowed types. *)
Theorem valid_service_account_type_true_iff
    (cirrus : Cirrus) (project account_id : string) :
  result (is_valid_service_account_type cirrus project account_id)
  = Returns true
  <-> exists g account_type,
        GoogleCloudManager cirrus (Some project) = Returns g
        /\ get_service_account_type g account_id = Returns account_type
        /\ (account_type = COMPUTE_ENGINE_DEFAULT_SERVICE_ACCOUNT cirrus
            \/ account_type = USER_MANAGED_SERVICE_ACCOUNT cirrus).
Proof.
  destruct (GoogleCloudManager cirrus (Some project)) as [g | e] eqn:Hg.
  - destruct (get_service_account_type g account_id) as [t | e] eqn:Hm.
    + assert (Hres : result (is_valid_service_account_type cirrus project
                               account_id)
                     = Returns (py_in t (ALLOWED_SERVICE_ACCOUNT_TYPES cirrus))).
      { unfold is_valid_service_account_type. apply result_try_returns.
        rewrite (result_with_available _ _ _ g Hg).
        rewrite (result_bind_returns _ _ t); [reflexivity | exact Hm]. }
      rewrite Hres. split.
      * intros [= H]. exists g, t. repeat split; auto.
        now apply py_in_allowed.
      * intros (g' & t' & [= <-] & Hm' & Hallowed).
        rewrite Hm in Hm'. injection Hm' as <-.
        apply py_in_allowed in Hallowed. now rewrite Hallowed.
    + run_check Hg. rewrite Hm. simpl. split; [discriminate |].
      intros (g' & t' & [= <-] & Hm' & _). rewrite Hm in Hm'. discriminate.
  - run_check Hg. split; [discriminate |].
    intros (g' & t' & Hg' & _). discriminate.
Qed.

(** ** The membership loop *)

(** X13: the verdict of the membership loop depends on which members the
    project has, not on the order or the number of times the provider
    lists them. *)
Theorem membership_verdict_depends_on_members_only
    (cirrus : Cirrus) (listed listed' : list GooglePolicyMember) :
  (forall member, In member listed <-> In member listed') ->
  only_users_and_service_accounts cirrus listed
  = only_users_and_service_accounts cirrus listed'.
Proof.
  intros Hsame.
  destruct (only_users_and_service_accounts cirrus listed) eqn:E;
    destruct (only_users_and_service_accounts cirrus listed') eqn:E';
    try reflexivity.
  - apply only_users_and_service_accounts_spec in E.
    rewrite Forall_forall in E.
    assert (H : Forall (is_user_or_service_account cirrus) listed').
    { apply Forall_forall. intros member Hin. apply E. now apply Hsame. }
    apply only_users_and_service_accounts_spec in H. congruence.
  - apply only_users_and_service_accounts_spec in E'.
    rewrite Forall_forall in E'.
    assert (H : Forall (is_user_or_service_account cirrus) listed).
    { apply Forall_forall. intros member Hin. apply E'. now apply Hsame. }
    apply only_users_and_service_accounts_spec in H. congruence.
Qed.

Lemma membership_verdict_depends_on_members_only_witness :
  only_users_and_service_accounts sample_cirrus
    [ {| member_type := "user"; member_name := "a" |};
      {| member_type := "group"; member_name := "g" |} ]
  = only_users_and_service_accounts sample_cirrus
      [ {| member_type := "group"; member_name := "g" |};
        {| member_type := "user"; member_name := "a" |};
        {| member_type := "group"; member_name := "g" |} ].
Proof.
  apply (membership_verdict_depends_on_members_only sample_cirrus).
  intros member. simpl. tauto.
Defined.

(** ** The bulk access check, as the code computes it *)

Lemma has_some_row_iff current_session user :
  has_some_row current_session user = true
  <-> exists row,
        In row (access_privileges current_session)
        /\ user_id row = Some user.
Proof.
  unfold has_some_row. rewrite existsb_exists.
  split; intros (row & Hin & H); exists row; split; auto.
  - destruct (user_id row) as [z |]; simpl in H; [| discriminate].
    apply Z.eqb_eq in H. now subst.
  - rewrite H. simpl. apply Z.eqb_refl.
Qed.

(** X14: [do_all_users_have_access_to_project] always returns a boolean,
    and it is [True] exactly when every listed user has an
    [AccessPrivilege] row carrying that user id, whatever project the row
    is for; rows without a user id never count. *)
Theorem all_users_check_true_iff_each_has_a_row
    (current_session : Session) (user_ids : list Z) (project_auth_id : string) :
  exists b,
    result (do_all_users_have_access_to_project current_session user_ids
              project_auth_id) = Returns b
    /\ (b = true
        <-> forall user, In user user_ids ->
              exists row,
                In row (access_privileges current_session)
                /\ user_id row = Some user).
Proof.
  exists (forallb (has_some_row current_session) user_ids).
  split; [apply do_all_users_have_access_to_project_result |].
  rewrite forallb_forall.
  split; intros H user Hin; apply has_some_row_iff; now apply H.
Qed.

Lemma query_first_hit current_session user :
  has_some_row current_session user = true ->
  exists row,
    query_first current_session
      (column_eq AccessPrivilege_user_id (SqlInt user))
    = (Returns (Some row), [user_query user]).
Proof.
  intros H. rewrite <- first_row_found in H. unfold query_first.
  destruct (hd_error _) as [row |]; [| discriminate].
  now exists row.
Qed.

Lemma query_first_miss current_session user :
  has_some_row current_session user = false ->
  query_first current_session
    (column_eq AccessPrivilege_user_id (SqlInt user))
  = (Returns None, [user_query user]).
Proof.
  intros H. rewrite <- first_row_found in H. unfold query_first.
  now destruct (hd_error _).
Qed.

Lemma all_users_check_step current_session user rest project_auth_id :
  do_all_users_have_access_to_project current_session (user :: rest)
    project_auth_id
  = bind (query_first current_session
            (column_eq AccessPrivilege_user_id (SqlInt user)))
         (fun access_privillege =>
            match access_privillege with
            | None => ret false
            | Some _ =>
                do_all_users_have_access_to_project current_session rest
                  project_auth_id
            end).
Proof. reflexivity. Qed.

(** Users who are found cost one query each, and the loop goes on. *)
Lemma all_users_check_prefix current_session project_auth_id found :
  forall rest,
  forallb (has_some_row current_session) found = true ->
  do_all_users_have_access_to_project current_session (found ++ rest)
    project_auth_id
  = (result (do_all_users_have_access_to_project current_session rest
               project_auth_id),
     map user_query found
     ++ trace (do_all_users_have_access_to_project current_session rest
                 project_auth_id)).
Proof.
  induction found as [| user found' IH]; intros rest Hall.
  - simpl. now destruct (do_all_users_have_access_to_project _ rest _).
  - simpl in Hall. apply andb_true_iff in Hall as [Huser Hrest].
    rewrite <- app_comm_cons, all_users_check_step.
    destruct (query_first_hit current_session user Huser) as [row ->].
    unfold bind. rewrite (IH rest Hrest). reflexivity.
Qed.

(** X15: the loop issues one query per user, each filtering on the user
    id alone, and stops at the first user without a row: the users listed
    after that one are never looked up. *)
Theorem all_users_check_stops_at_first_miss
    (current_session : Session) (project_auth_id : string)
    (found : list Z) (missing : Z) (unchecked : list Z) :
  forallb (has_some_row current_session) found = true ->
  has_some_row current_session missing = false ->
  do_all_users_have_access_to_project current_session
    (found ++ missing :: unchecked) project_auth_id
  = (Returns false, map user_query (found ++ [missing])).
Proof.
  intros Hfound Hmiss.
  rewrite (all_users_check_prefix _ _ found _ Hfound).
  rewrite all_users_check_step.
  rewrite (query_first_miss current_session missing Hmiss).
  simpl. now rewrite map_app.
Qed.

Lemma all_users_check_stops_at_first_miss_witness :
  do_all_users_have_access_to_project sample_session ([1] ++ 2 :: [1; 3])
    "phs_project_1"
  = (Returns false, map user_query ([1] ++ [2])).
Proof.
  apply (all_users_check_stops_at_first_miss sample_session "phs_project_1"
           [1] 2 [1; 3]); reflexivity.
Defined.

(** X16: when every listed user has a row, the function returns [True]
    after exactly one query per listed user, in the order of the list. *)
Theorem all_users_check_queries_each_user
    (current_session : Session) (project_auth_id : string) (user_ids : list Z) :
  forallb (has_some_row current_session) user_ids = true ->
  do_all_users_have_access_to_project current_session user_ids project_auth_id
  = (Returns true, map user_query user_ids).
Proof.
  intros Hall.
  pose proof (all_users_check_prefix current_session project_auth_id
                user_ids [] Hall) as H.
  rewrite app_nil_r in H. rewrite H. simpl. now rewrite app_nil_r.
Qed.

Lemma all_users_check_queries_each_user_witness :
  do_all_users_have_access_to_project sample_session [1; 1] "phs_project_2"
  = (Returns true, map user_query [1; 1]).
Proof.
  apply (all_users_check_queries_each_user sample_session "phs_project_2"
           [1; 1]).
  reflexivity.
Defined.

(** X17: users who all have a direct row for the project make the
    function return [True], after one query per user. *)
Theorem all_users_check_accepts_direct_rows
    (current_session : Session) (user_ids : list Z) (project_auth_id : string) :
  userHasAccessToAllOf current_session user_ids project_auth_id = true ->
  do_all_users_have_access_to_project current_session user_ids project_auth_id
  = (Returns true, map user_query user_ids).
Proof.
  intros Hdirect.
  pose proof (direct_rows_make_the_check_pass _ _ _ Hdirect) as Hres.
  rewrite do_all_users_have_access_to_project_result in Hres.
  injection Hres as Hall.
  pose proof (all_users_check_prefix current_session project_auth_id
                user_ids [] Hall) as H.
  rewrite app_nil_r in H. rewrite H. simpl. now rewrite app_nil_r.
Qed.

Lemma all_users_check_accepts_direct_rows_witness :
  do_all_users_have_access_to_project sample_session [1] "phs_project_1"
  = (Returns true, map user_query [1]).
Proof.
  apply (all_users_check_accepts_direct_rows sample_session [1]
           "phs_project_1").
  reflexivity.
Defined.
